(** * Schema download scripts: [graphql_schema.py] and [graphql_schema2.py]

    Both scripts post one introspection query to a GraphQL endpoint, look at
    the decoded answer, hand its [data] member to [print_schema] and store the
    text in [schema.graphql].  The development below embeds the two scripts
    over an explicit world (files, open descriptors, an effect trace) and an
    environment record that stands for the collaborators the scripts import:
    [requests], the JSON decoder behind [response.json()], [print_schema] of
    the graphql package, and the operating system's file layer. *)

From stdpp Require Import gmap strings list fin_maps.

Set Warnings "-register-all".

Local Open Scope string_scope.

(** ** Values *)

(** What [response.json()] can return: the Python image of a JSON document.
    Objects become dictionaries (keys unique), arrays become lists.  Numbers
    are never inspected by the scripts; a float keeps its literal. *)
Inductive json : Type :=
| JNull
| JBool (b : bool)
| JInt (n : Z)
| JFloat (lit : string)
| JString (s : string)
| JArray (xs : list json)
| JObject (members : gmap string json).

(** The exceptions that can leave the scripts.  [Exception args] is the one
    the scripts raise themselves; the others come from the interpreter or
    from the imported packages. *)
Inductive exn : Type :=
| Exception (args : json)
| KeyError (key : string)
| TypeError
| ValueError
| JSONDecodeError
| RequestException
| SchemaPrintError
| OSError.

Inductive result (A : Type) : Type :=
| Ok (a : A)
| Raise (e : exn).
Arguments Ok {A} a.
Arguments Raise {A} e.

(** An answer of the endpoint as [requests] presents it. *)
Record Response := mkResponse {
  status_code : Z;
  text : string
}.

(** ** Effects *)

(** The trace records what the scripts call, in order.  [EvPost url body] is
    one call of [requests.post(url, json=body)]; the HTTP requests that the
    library sends while that call runs are described by [follow] below. *)
Inductive event : Type :=
| EvPost (url : string) (body : json)
| EvOpen (path : string)
| EvWrite (fd : nat) (chunk : string)
| EvClose (fd : nat)
| EvPrint (line : string).

(** The collaborators.  [lib_introspection_query] is the constant that
    [graphql_schema.py] imports from the graphql package; its text is not part
    of this repository.  [requests_post] answers a request or fails to
    connect; [json_loads] decodes a body or rejects it; [print_schema] renders
    or raises.  [open_denied] and [write_fault] are the faults of the file
    layer: a path that cannot be opened for writing, and a write that stores
    only the first [n] characters before it fails. *)
Record Env := mkEnv {
  lib_introspection_query : string;
  requests_post : string -> json -> option Response;
  json_loads : string -> option json;
  print_schema : json -> option string;
  open_denied : string -> bool;
  write_fault : string -> string -> option nat
}.

Record World := mkWorld {
  files : gmap string string;
  handles : gmap nat string;
  trace : list event
}.

Definition log (ev : event) (w : World) : World :=
  mkWorld (files w) (handles w) (trace w ++ [ev]).

Definition set_file (path content : string) (w : World) : World :=
  mkWorld (<[path := content]> (files w)) (handles w) (trace w).

(** State and exception monad of the interpreter. *)
Definition M (A : Type) : Type := World -> result A * World.

Definition ret {A} (a : A) : M A := fun w => (Ok a, w).

Definition raise {A} (e : exn) : M A := fun w => (Raise e, w).

Definition bind {A B} (m : M A) (k : A -> M B) : M B :=
  fun w =>
    match m w with
    | (Ok a, w1) => k a w1
    | (Raise e, w1) => (Raise e, w1)
    end.

Declare Scope py_scope.
Delimit Scope py_scope with py.
Notation "x <- m ;; k" := (bind m (fun x => k))
  (at level 100, m at next level, right associativity) : py_scope.
Notation "m ;;; k" := (bind m (fun _ => k))
  (at level 100, right associativity) : py_scope.
Local Open Scope py_scope.

(** ** The Python operations the scripts use *)

(** [needle in hay] on two strings. *)
Fixpoint str_contains (needle hay : string) : bool :=
  String.prefix needle hay ||
  match hay with
  | EmptyString => false
  | String _ rest => str_contains needle rest
  end.

Definition is_str (k : string) (v : json) : bool :=
  match v with
  | JString s => bool_decide (s = k)
  | _ => false
  end.

(** [k in v]: key membership on a dict, element membership on a list,
    substring on a str, [TypeError] on anything else. *)
Definition py_in (k : string) (v : json) : M bool :=
  match v with
  | JObject members => ret (bool_decide (is_Some (members !! k)))
  | JArray xs => ret (existsb (is_str k) xs)
  | JString s => ret (str_contains k s)
  | _ => raise TypeError
  end.

(** [v[k]] with a str subscript: a dict looks the key up, every other value
    refuses a str subscript. *)
Definition py_getitem (v : json) (k : string) : M json :=
  match v with
  | JObject members =>
      match members !! k with
      | Some x => ret x
      | None => raise (KeyError k)
      end
  | _ => raise TypeError
  end.

(** [requests.post(url, json=body)]: the call is recorded, and its outcome is
    the response the library hands back in the end or its exception.  The
    number of HTTP requests behind one call is the library's business. *)
Definition py_requests_post (E : Env) (url : string) (body : json) : M Response :=
  fun w =>
    match requests_post E url body with
    | Some r => (Ok r, log (EvPost url body) w)
    | None => (Raise RequestException, log (EvPost url body) w)
    end.

(** [response.json()]: decodes the body, whatever the status code. *)
Definition py_response_json (E : Env) (response : Response) : M json :=
  match json_loads E (text response) with
  | Some v => ret v
  | None => raise JSONDecodeError
  end.

Definition py_print_schema (E : Env) (schema : json) : M string :=
  match print_schema E schema with
  | Some sdl => ret sdl
  | None => raise SchemaPrintError
  end.

Definition py_print (line : string) : M unit :=
  fun w => (Ok tt, log (EvPrint line) w).

(** [open(path, 'w')]: on success the file exists and is empty, and a fresh
    descriptor refers to it. *)
Definition py_open_w (E : Env) (path : string) : M nat :=
  fun w =>
    let w1 := log (EvOpen path) w in
    if open_denied E path then (Raise OSError, w1)
    else
      let fd := fresh (dom (handles w1)) in
      (Ok fd, mkWorld (<[path := ""]> (files w1)) (<[fd := path]> (handles w1)) (trace w1)).

(** [f.write(chunk)]: appends at the file position; a fault stores a prefix
    of the chunk and raises. *)
Definition py_write (E : Env) (fd : nat) (chunk : string) : M unit :=
  fun w =>
    let w1 := log (EvWrite fd chunk) w in
    match handles w1 !! fd with
    | None => (Raise ValueError, w1)
    | Some path =>
        let old := default "" (files w1 !! path) in
        match write_fault E path chunk with
        | None => (Ok tt, set_file path (old ++ chunk) w1)
        | Some n => (Raise OSError, set_file path (old ++ String.substring 0 n chunk) w1)
        end
    end.

Definition py_close (fd : nat) : M unit :=
  fun w => (Ok tt, mkWorld (files w) (delete fd (handles w)) (trace w ++ [EvClose fd])).

(** [with open(path, 'w') as f: body]: the descriptor is closed when the body
    returns and when it raises; the outcome of the body is the outcome of the
    statement. *)
Definition with_open_w {A} (E : Env) (path : string) (body : nat -> M A) : M A :=
  fun w =>
    match py_open_w E path w with
    | (Raise e, w1) => (Raise e, w1)
    | (Ok fd, w1) =>
        let '(r, w2) := body fd w1 in
        let '(_, w3) := py_close fd w2 in
        (r, w3)
    end.

(** ** [graphql_schema.py] *)

Module Script1.

Definition endpoint_url : string := "https://your-graphql-endpoint.com/graphql".

Definition fetch_schema (E : Env) (endpoint_url : string) : M json :=
  response <- py_requests_post E endpoint_url
                (JObject {[ "query" := JString (lib_introspection_query E) ]}) ;;
  response_json <- py_response_json E response ;;
  has_errors <- py_in "errors" response_json ;;
  (if has_errors : bool
   then errors <- py_getitem response_json "errors" ;; raise (Exception errors)
   else ret tt) ;;;
  py_getitem response_json "data".

Definition save_schema (E : Env) (schema_json file_path : string) : M unit :=
  with_open_w E file_path (fun schema_file => py_write E schema_file schema_json).

Definition main (E : Env) : M unit :=
  schema_data <- fetch_schema E endpoint_url ;;
  schema_json <- py_print_schema E schema_data ;;
  save_schema E schema_json "schema.graphql" ;;;
  py_print "Schema saved successfully.".

End Script1.

(** ** [graphql_schema2.py] *)

Module Script2.

Definition introspection_query : string := "
    query IntrospectionQuery {
        __schema {
            queryType {
                name
            }
            mutationType {
                name
            }
            subscriptionType {
                name
            }
            types {
                ...FullType
            }
        }
    }

    fragment FullType on __Type {
        kind
        name
        description
        fields(includeDeprecated: true) {
            name
            description
            args {
                ...InputValue
            }
            type {
                ...TypeRef
            }
            isDeprecated
            deprecationReason
        }
        inputFields {
            ...InputValue
        }
        interfaces {
            ...TypeRef
        }
        enumValues(includeDeprecated: true) {
            name
            description
            isDeprecated
            deprecationReason
        }
        possibleTypes {
            ...TypeRef
        }
    }

    fragment InputValue on __InputValue {
        name
        description
        type {
            ...TypeRef
        }
        defaultValue
    }

    fragment TypeRef on __Type {
        kind
        name
        ofType {
            kind
            name
            ofType {
                kind
                name
                ofType {
                    kind
                    name
                }
            }
        }
    }
".

Definition introspection_query2 : string := "
        query IntrospectionQuery {
            __schema {
                types {
                    name
                    kind
                    fields {
                        name
                        type {
                            name
                            kind
                            ofType {
                                name
                                kind
                                ofType {
                                    name
                                    kind
                                }
                            }
                        }
                    }
                }
            }
        }
    ".

Definition endpoint_url : string := "https://your-graphql-endpoint.com/graphql".

Definition fetch_schema (E : Env) (endpoint_url : string) : M json :=
  response <- py_requests_post E endpoint_url
                (JObject {[ "query" := JString introspection_query ]}) ;;
  response_json <- py_response_json E response ;;
  has_errors <- py_in "errors" response_json ;;
  (if has_errors : bool
   then errors <- py_getitem response_json "errors" ;; raise (Exception errors)
   else ret tt) ;;;
  py_getitem response_json "data".

Definition save_schema (E : Env) (schema_json file_path : string) : M unit :=
  with_open_w E file_path (fun schema_file => py_write E schema_file schema_json).

Definition main (E : Env) : M unit :=
  schema_data <- fetch_schema E endpoint_url ;;
  schema_json <- py_print_schema E schema_data ;;
  save_schema E schema_json "schema.graphql" ;;;
  py_print "Schema saved successfully.".

End Script2.

(** ** Vocabulary of the statements *)

(** The JSON body [{"query": q}] of a request. *)
Definition query_body (q : string) : json := JObject {[ "query" := JString q ]}.

(** Member [k] of a decoded document, when the document is an object that
    has one. *)
Definition member (k : string) (v : json) : option json :=
  match v with
  | JObject members => members !! k
  | _ => None
  end.

(** The events a computation added to the trace of [w]. *)
Definition added (evs : list event) (w w' : World) : Prop :=
  trace w' = (trace w ++ evs)%list.

Definition is_file_event (ev : event) : bool :=
  match ev with
  | EvOpen _ | EvWrite _ _ | EvClose _ => true
  | _ => false
  end.

Definition is_post (ev : event) : bool :=
  match ev with
  | EvPost _ _ => true
  | _ => false
  end.

(** The text both [fetch_schema] functions share, the query left open. *)
Definition fetch_with (q : string) (E : Env) (url : string) : M json :=
  response <- py_requests_post E url (query_body q) ;;
  response_json <- py_response_json E response ;;
  has_errors <- py_in "errors" response_json ;;
  (if has_errors : bool
   then errors <- py_getitem response_json "errors" ;; raise (Exception errors)
   else ret tt) ;;;
  py_getitem response_json "data".

(** The text both [main] functions share. *)
Definition main_with (q : string) (E : Env) : M unit :=
  schema_data <- fetch_with q E "https://your-graphql-endpoint.com/graphql" ;;
  schema_json <- py_print_schema E schema_data ;;
  with_open_w E "schema.graphql" (fun schema_file => py_write E schema_file schema_json) ;;;
  py_print "Schema saved successfully.".

(** The rest of either [main], once [fetch_schema] has returned. *)
Definition store (E : Env) (schema_data : json) : M unit :=
  schema_json <- py_print_schema E schema_data ;;
  with_open_w E "schema.graphql" (fun schema_file => py_write E schema_file schema_json) ;;;
  py_print "Schema saved successfully.".

(** The outcome of [store], path by path. *)
Definition stored (E : Env) (schema_data : json) (w : World) : result unit * World :=
  match print_schema E schema_data with
  | None => (Raise SchemaPrintError, w)
  | Some sdl =>
      if open_denied E "schema.graphql"
      then (Raise OSError, log (EvOpen "schema.graphql") w)
      else
        let fd := fresh (dom (handles w)) in
        match write_fault E "schema.graphql" sdl with
        | None =>
            (Ok tt,
             mkWorld (<["schema.graphql" := sdl]> (files w)) (handles w)
                     (trace w ++ [EvOpen "schema.graphql"; EvWrite fd sdl; EvClose fd;
                                  EvPrint "Schema saved successfully."]))
        | Some n =>
            (Raise OSError,
             mkWorld (<["schema.graphql" := String.substring 0 n sdl]> (files w)) (handles w)
                     (trace w ++ [EvOpen "schema.graphql"; EvWrite fd sdl; EvClose fd]))
        end
  end.

(** Both scripts under one name. *)
Inductive script : Type := GraphqlSchema | GraphqlSchema2.

Definition query_of (E : Env) (s : script) : string :=
  match s with
  | GraphqlSchema => lib_introspection_query E
  | GraphqlSchema2 => Script2.introspection_query
  end.

Definition endpoint_url_of (s : script) : string :=
  match s with
  | GraphqlSchema => Script1.endpoint_url
  | GraphqlSchema2 => Script2.endpoint_url
  end.

Definition fetch_schema_of (s : script) : Env -> string -> M json :=
  match s with
  | GraphqlSchema => Script1.fetch_schema
  | GraphqlSchema2 => Script2.fetch_schema
  end.

Definition save_schema_of (s : script) : Env -> string -> string -> M unit :=
  match s with
  | GraphqlSchema => Script1.save_schema
  | GraphqlSchema2 => Script2.save_schema
  end.

Definition main_of (s : script) : Env -> M unit :=
  match s with
  | GraphqlSchema => Script1.main
  | GraphqlSchema2 => Script2.main
  end.

(** The world right after the request of script [s] went out. *)
Definition sent (s : script) (E : Env) (url : string) (w : World) : World :=
  log (EvPost url (query_body (query_of E s))) w.

(** What the statements of [fetch_schema] after [response.json()] make of a
    decoded document. *)
Definition inspect (v : json) : result json :=
  match v with
  | JObject members =>
      match members !! "errors" with
      | Some errors => Raise (Exception errors)
      | None =>
          match members !! "data" with
          | Some data => Ok data
          | None => Raise (KeyError "data")
          end
      end
  | _ => Raise TypeError
  end.

(** A run that touched no file: same files, same descriptors, and no file
    event among the events it added. *)
Definition no_file_access (w w' : World) : Prop :=
  files w' = files w /\ handles w' = handles w /\
  exists evs, added evs w w' /\ forallb (fun ev => negb (is_file_event ev)) evs = true.

(** The check as the specification words it: [errors] present and non-empty. *)
Definition errors_present_and_nonempty (v : json) : bool :=
  match member "errors" v with
  | Some (JArray (_ :: _)) => true
  | _ => false
  end.

(** The same endpoint answering with another status code. *)
Definition with_status (code : Z) (E : Env) : Env :=
  mkEnv (lib_introspection_query E)
        (fun url body => (fun r => mkResponse code (text r)) <$> requests_post E url body)
        (json_loads E) (print_schema E) (open_denied E) (write_fault E).

(** ** Concrete runs *)

(** An endpoint that answers every request with [body], a decoder that maps
    [body] to [doc], a printer that renders [sdl], and a file layer with the
    given faults.  Bodies are abbreviated: the decoder is a collaborator, so
    only the pairing of a body with its document matters.  The imported query
    constant is a short document of its own, as a graphql package may ship. *)
Definition sample_env (code : Z) (body : string) (doc : option json) (sdl : string)
    (denied : bool) (fault : option nat) : Env :=
  mkEnv "query IntrospectionQuery { __schema { types { name } } }"
        (fun _ _ => Some (mkResponse code body))
        (fun b => if String.eqb b body then doc else None)
        (fun _ => Some sdl)
        (fun _ => denied)
        (fun _ _ => fault).

Definition old_world : World :=
  mkWorld {[ "schema.graphql" := "type Old { id: ID }" ]} ∅ [].

Definition ping_sdl : string := "type Query { ping: String }".

Definition ping_data : json :=
  JObject {[ "__schema" := JObject {[ "queryType" := JObject {[ "name" := JString "Query" ]} ]} ]}.

Definition ok_doc : json := JObject {[ "data" := ping_data ]}.

Definition failed_doc : json :=
  JObject {[ "errors" := JArray [JObject {[ "message" := JString "introspection disabled" ]}] ]}.

Definition empty_errors_doc : json :=
  JObject (<[ "errors" := JArray [] ]> {[ "data" := ping_data ]}).

Definition bare_doc : json := JObject {[ "extensions" := JNull ]}.

Definition ok_env : Env := sample_env 200 "{...}" (Some ok_doc) ping_sdl false None.
Definition failed_env : Env := sample_env 200 "{...}" (Some failed_doc) ping_sdl false None.
Definition empty_errors_env : Env := sample_env 200 "{...}" (Some empty_errors_doc) ping_sdl false None.
Definition bare_env : Env := sample_env 200 "{...}" (Some bare_doc) ping_sdl false None.
Definition html_env : Env := sample_env 502 "<html>Bad Gateway</html>" None ping_sdl false None.

(** More collaborators for concrete runs: an endpoint that cannot be reached,
    a printer that raises, an answer that is an array, an answer whose
    [errors] member is [null] beside a [data] member, a path that cannot be
    opened, a write that fails after four characters; and a world that
    already holds another file, an open descriptor and some output. *)
Definition unreachable_env : Env :=
  mkEnv "query IntrospectionQuery { __schema { types { name } } }"
        (fun _ _ => None) (fun _ => None) (fun _ => Some ping_sdl)
        (fun _ => false) (fun _ _ => None).

Definition unprintable_env : Env :=
  mkEnv "query IntrospectionQuery { __schema { types { name } } }"
        (fun _ _ => Some (mkResponse 200 "{...}")) (fun _ => Some ok_doc) (fun _ => None)
        (fun _ => false) (fun _ _ => None).

Definition array_doc : json := JArray [JString "errors"].

Definition null_errors_doc : json :=
  JObject (<[ "errors" := JNull ]> {[ "data" := ping_data ]}).

Definition array_env : Env := sample_env 200 "[...]" (Some array_doc) ping_sdl false None.
Definition null_errors_env : Env :=
  sample_env 200 "{...}" (Some null_errors_doc) ping_sdl false None.
Definition denied_env : Env := sample_env 200 "{...}" (Some ok_doc) ping_sdl true None.
Definition torn_env : Env := sample_env 200 "{...}" (Some ok_doc) ping_sdl false (Some 4).

Definition busy_world : World :=
  mkWorld (<[ "notes.txt" := "keep" ]> {[ "schema.graphql" := "type Old { id: ID }" ]})
          {[ 0 := "notes.txt" ]}
          [EvPrint "earlier"].

(** ** What one call of [requests.post] sends

    The scripts call [requests.post] with its defaults, so the library
    follows redirects: an answer with status 301, 302, 303, 307 or 308 and a
    [Location] is followed by a request to that location, with the method
    and the body kept on 307 and 308 and a bodiless GET otherwise, up to 30
    times; an endpoint that refuses the connection is sent nothing. *)
Inductive http_method : Type := POST | GET.

Record WireRequest := mkWireRequest {
  wire_method : http_method;
  wire_url : string;
  wire_body : option json
}.

Record WireAnswer := mkWireAnswer {
  answer_status : Z;
  answer_location : option string;
  answer_text : string
}.

(** How one HTTP request ends: no connection, so nothing was sent; sent and
    never answered; answered. *)
Inductive exchange : Type :=
| Refused
| Lost
| Answered (a : WireAnswer).

Definition redirect_target (a : WireAnswer) : option string :=
  if ((answer_status a =? 301) || (answer_status a =? 302) || (answer_status a =? 303)
      || (answer_status a =? 307) || (answer_status a =? 308))%Z
  then answer_location a
  else None.

Definition redirected (req : WireRequest) (a : WireAnswer) (target : string) : WireRequest :=
  if ((answer_status a =? 307) || (answer_status a =? 308))%Z
  then mkWireRequest (wire_method req) target (wire_body req)
  else mkWireRequest GET target None.

(** The requests sent for [req], in order, and the response handed back
    ([None]: the library raises). *)
Fixpoint follow (serve : WireRequest -> exchange) (redirects_left : nat)
    (req : WireRequest) : list WireRequest * option Response :=
  match serve req with
  | Refused => ([], None)
  | Lost => ([req], None)
  | Answered a =>
      match redirect_target a with
      | None => ([req], Some (mkResponse (answer_status a) (answer_text a)))
      | Some target =>
          match redirects_left with
          | O => ([req], None)
          | S n =>
              let '(later, outcome) := follow serve n (redirected req a target) in
              (req :: later, outcome)
          end
      end
  end.

Definition max_redirects : nat := 30.

Definition post_request (url : string) (body : json) : WireRequest :=
  mkWireRequest POST url (Some body).

(** The collaborators of [C], with [requests.post] played by the library in
    front of the server [serve]. *)
Definition library_env (serve : WireRequest -> exchange) (C : Env) : Env :=
  mkEnv (lib_introspection_query C)
        (fun url body => (follow serve max_redirects (post_request url body)).2)
        (json_loads C) (print_schema C) (open_denied C) (write_fault C).

(** The events that [w'] has after those of [w]. *)
Definition new_events (w w' : World) : list event :=
  drop (length (trace w)) (trace w').

(** The HTTP requests behind the calls recorded in [evs]. *)
Definition wire_of (serve : WireRequest -> exchange) (evs : list event) : list WireRequest :=
  flat_map (fun ev =>
              match ev with
              | EvPost url body => (follow serve max_redirects (post_request url body)).1
              | _ => []
              end) evs.

(** A server that has moved: the endpoint of the scripts answers 307 with
    the new location, and the new location answers. *)
Definition moved_server : WireRequest -> exchange :=
  fun req =>
    if String.eqb (wire_url req) "https://your-graphql-endpoint.com/graphql"
    then Answered (mkWireAnswer 307 (Some "https://eu.your-graphql-endpoint.com/graphql") "")
    else Answered (mkWireAnswer 200 None "{...}").

Definition moved_env : Env := library_env moved_server ok_env.

(** A server that answers every request at once. *)
Definition plain_server : WireRequest -> exchange :=
  fun _ => Answered (mkWireAnswer 200 None "{...}").

(** * Properties *)

(** ** The monad *)

Lemma bind_ok {A B} (m : M A) (k : A -> M B) w a w1 :
  m w = (Ok a, w1) -> bind m k w = k a w1.
Proof. intros H. unfold bind. now rewrite H. Qed.

Lemma bind_raise {A B} (m : M A) (k : A -> M B) w e w1 :
  m w = (Raise e, w1) -> bind m k w = (Raise e, w1).
Proof. intros H. unfold bind. now rewrite H. Qed.

(** ** The shape of the two scripts *)

Lemma fetch_schema1_shape E url :
  Script1.fetch_schema E url = fetch_with (lib_introspection_query E) E url.
Proof. reflexivity. Qed.

Lemma fetch_schema2_shape E url :
  Script2.fetch_schema E url = fetch_with Script2.introspection_query E url.
Proof. reflexivity. Qed.

Lemma main1_shape E : Script1.main E = main_with (lib_introspection_query E) E.
Proof. reflexivity. Qed.

Lemma main2_shape E : Script2.main E = main_with Script2.introspection_query E.
Proof. reflexivity. Qed.

(** ** [fetch_schema], path by path *)

Section Fetch.
Variable E : Env.
Variables (q url : string) (w : World).

Let posted : World := log (EvPost url (query_body q)) w.

Lemma fetch_unreachable :
  requests_post E url (query_body q) = None ->
  fetch_with q E url w = (Raise RequestException, posted).
Proof.
  intros Hpost. unfold fetch_with.
  apply bind_raise. unfold py_requests_post. now rewrite Hpost.
Qed.

Section Answered.
Variable r : Response.
Hypothesis Hpost : requests_post E url (query_body q) = Some r.

Lemma fetch_posted {A} (k : Response -> M A) :
  bind (py_requests_post E url (query_body q)) k w = k r posted.
Proof. apply bind_ok. unfold py_requests_post. now rewrite Hpost. Qed.

Lemma fetch_undecodable :
  json_loads E (text r) = None ->
  fetch_with q E url w = (Raise JSONDecodeError, posted).
Proof.
  intros Hbody. unfold fetch_with. rewrite fetch_posted.
  apply bind_raise. unfold py_response_json. now rewrite Hbody.
Qed.

Lemma fetch_decoded {A} (k : json -> M A) v :
  json_loads E (text r) = Some v ->
  bind (py_requests_post E url (query_body q))
       (fun response => bind (py_response_json E response) k) w = k v posted.
Proof.
  intros Hbody. rewrite fetch_posted. apply bind_ok.
  unfold py_response_json. now rewrite Hbody.
Qed.

Lemma fetch_errors_member v x :
  json_loads E (text r) = Some v ->
  member "errors" v = Some x ->
  fetch_with q E url w = (Raise (Exception x), posted).
Proof.
  intros Hbody Hm. unfold fetch_with. rewrite (fetch_decoded _ v Hbody).
  destruct v; try discriminate. simpl in Hm.
  unfold bind, py_in, py_getitem, ret, raise. rewrite Hm.
  rewrite bool_decide_eq_true_2 by eauto. reflexivity.
Qed.

Lemma fetch_data_member members d :
  json_loads E (text r) = Some (JObject members) ->
  members !! "errors" = None ->
  members !! "data" = Some d ->
  fetch_with q E url w = (Ok d, posted).
Proof.
  intros Hbody Herr Hdata.
  unfold fetch_with. rewrite (fetch_decoded _ _ Hbody).
  unfold bind, py_in, py_getitem, ret, raise. rewrite Herr, Hdata.
  rewrite bool_decide_eq_false_2 by (intros [? ?]; discriminate).
  reflexivity.
Qed.

Lemma fetch_no_data members :
  json_loads E (text r) = Some (JObject members) ->
  members !! "errors" = None ->
  members !! "data" = None ->
  fetch_with q E url w = (Raise (KeyError "data"), posted).
Proof.
  intros Hbody Herr Hdata.
  unfold fetch_with. rewrite (fetch_decoded _ _ Hbody).
  unfold bind, py_in, py_getitem, ret, raise. rewrite Herr, Hdata.
  rewrite bool_decide_eq_false_2 by (intros [? ?]; discriminate).
  reflexivity.
Qed.

Lemma fetch_not_object v :
  json_loads E (text r) = Some v ->
  (forall members, v <> JObject members) ->
  fetch_with q E url w = (Raise TypeError, posted).
Proof.
  intros Hbody Hno. unfold fetch_with. rewrite (fetch_decoded _ v Hbody).
  destruct v; try reflexivity.
  - unfold bind, py_in, py_getitem, ret, raise.
    now destruct (str_contains "errors" s).
  - unfold bind, py_in, py_getitem, ret, raise.
    now destruct (existsb (is_str "errors") xs).
  - now destruct (Hno members).
Qed.

(** The exception of the check is raised exactly when the decoded
    document is an object with an [errors] member, and it carries that
    member. *)
Lemma fetch_exception_iff v x :
  json_loads E (text r) = Some v ->
  (fetch_with q E url w).1 = Raise (Exception x) <-> member "errors" v = Some x.
Proof.
  intros Hbody. split.
  - intros Hrun. destruct (member "errors" v) as [y|] eqn:Hm.
    + rewrite (fetch_errors_member v y Hbody Hm) in Hrun. simpl in Hrun. congruence.
    + exfalso. destruct v;
        try (rewrite (fetch_not_object _ Hbody) in Hrun by discriminate;
             discriminate).
      simpl in Hm. destruct (members !! "data") as [d|] eqn:Hd.
      * rewrite (fetch_data_member members d Hbody Hm Hd) in Hrun. discriminate.
      * rewrite (fetch_no_data members Hbody Hm Hd) in Hrun. discriminate.
  - intros Hm. now rewrite (fetch_errors_member v x Hbody Hm).
Qed.
End Answered.
End Fetch.

(** One equation for every path of [fetch_schema]. *)
Lemma fetch_with_run q E url w :
  fetch_with q E url w =
  (match requests_post E url (query_body q) with
   | None => Raise RequestException
   | Some r =>
       match json_loads E (text r) with
       | None => Raise JSONDecodeError
       | Some v => inspect v
       end
   end, log (EvPost url (query_body q)) w).
Proof.
  destruct (requests_post E url (query_body q)) as [r|] eqn:Hpost.
  - destruct (json_loads E (text r)) as [v|] eqn:Hbody.
    + destruct v;
        try (erewrite fetch_not_object by (eauto || discriminate); reflexivity).
      simpl. destruct (members !! "errors") as [x|] eqn:Herr.
      * now erewrite fetch_errors_member by eauto.
      * destruct (members !! "data") as [d|] eqn:Hdata.
        -- now erewrite fetch_data_member by eauto.
        -- now erewrite fetch_no_data by eauto.
    + now erewrite fetch_undecodable by eauto.
  - now apply fetch_unreachable.
Qed.

Lemma fetch_schema_of_shape s E url :
  fetch_schema_of s E url = fetch_with (query_of E s) E url.
Proof. now destruct s. Qed.

Lemma main_of_shape s E : main_of s E = main_with (query_of E s) E.
Proof. now destruct s. Qed.

Lemma endpoint_url_same s : endpoint_url_of s = "https://your-graphql-endpoint.com/graphql".
Proof. now destruct s. Qed.

Lemma main_with_store q E :
  main_with q E =
  bind (fetch_with q E "https://your-graphql-endpoint.com/graphql") (store E).
Proof. reflexivity. Qed.

(** ** Writing the file *)

Lemma prefix_substring (n : nat) (s : string) :
  String.prefix (String.substring 0 n s) s = true.
Proof.
  revert n. induction s as [|c s IH]; intros [|n]; simpl; try reflexivity.
  destruct (Ascii.ascii_dec c c); [apply IH | congruence].
Qed.

Lemma prefix_refl (s : string) : String.prefix s s = true.
Proof.
  induction s as [|c s IH]; simpl; [reflexivity|].
  destruct (Ascii.ascii_dec c c); [apply IH | congruence].
Qed.

Section Save.
Variable E : Env.
Variables (chunk path : string) (w : World).

Let fd : nat := fresh (dom (handles w)).

Lemma fresh_descriptor_unused : handles w !! fd = None.
Proof. apply not_elem_of_dom, is_fresh. Qed.

Lemma save_denied :
  open_denied E path = true ->
  with_open_w E path (fun f => py_write E f chunk) w
  = (Raise OSError, log (EvOpen path) w).
Proof. intros Hd. unfold with_open_w, py_open_w. now rewrite Hd. Qed.

Lemma save_stored :
  open_denied E path = false ->
  write_fault E path chunk = None ->
  with_open_w E path (fun f => py_write E f chunk) w
  = (Ok tt, mkWorld (<[path := chunk]> (files w)) (handles w)
                    (trace w ++ [EvOpen path; EvWrite fd chunk; EvClose fd])).
Proof.
  intros Hd Hf. unfold with_open_w, py_open_w, py_write, py_close. rewrite Hd.
  cbn [log set_file files handles trace]. fold fd.
  rewrite !lookup_insert_eq, Hf. simpl.
  rewrite insert_insert_eq, delete_insert_id by apply fresh_descriptor_unused.
  now rewrite <- !app_assoc.
Qed.

Lemma save_torn n :
  open_denied E path = false ->
  write_fault E path chunk = Some n ->
  with_open_w E path (fun f => py_write E f chunk) w
  = (Raise OSError,
     mkWorld (<[path := String.substring 0 n chunk]> (files w)) (handles w)
             (trace w ++ [EvOpen path; EvWrite fd chunk; EvClose fd])).
Proof.
  intros Hd Hf. unfold with_open_w, py_open_w, py_write, py_close. rewrite Hd.
  cbn [log set_file files handles trace]. fold fd.
  rewrite !lookup_insert_eq, Hf. simpl.
  rewrite insert_insert_eq, delete_insert_id by apply fresh_descriptor_unused.
  now rewrite <- !app_assoc.
Qed.
End Save.

(** ** [main], path by path *)

Lemma store_run E d w : store E d w = stored E d w.
Proof.
  unfold store, stored, py_print_schema.
  destruct (print_schema E d) as [sdl|]; [|reflexivity].
  unfold bind at 1. unfold ret.
  destruct (open_denied E "schema.graphql") eqn:Hd.
  - apply bind_raise. now apply save_denied.
  - destruct (write_fault E "schema.graphql" sdl) as [n|] eqn:Hf.
    + apply bind_raise. now apply save_torn.
    + erewrite bind_ok by now apply save_stored.
      unfold py_print, log. simpl. now rewrite <- app_assoc.
Qed.

Lemma main_with_run q E w :
  main_with q E w =
  match (fetch_with q E "https://your-graphql-endpoint.com/graphql" w).1 with
  | Ok d => stored E d (log (EvPost "https://your-graphql-endpoint.com/graphql" (query_body q)) w)
  | Raise e => (Raise e, log (EvPost "https://your-graphql-endpoint.com/graphql" (query_body q)) w)
  end.
Proof.
  rewrite main_with_store. unfold bind. rewrite fetch_with_run. simpl.
  match goal with |- context [match ?o with Ok _ => _ | Raise _ => _ end] => destruct o end.
  - apply store_run.
  - reflexivity.
Qed.

Lemma main_with_raise q E w e :
  (fetch_with q E "https://your-graphql-endpoint.com/graphql" w).1 = Raise e ->
  main_with q E w
  = (Raise e, log (EvPost "https://your-graphql-endpoint.com/graphql" (query_body q)) w).
Proof. intros H. now rewrite main_with_run, H. Qed.

Lemma log_no_file_access ev w :
  is_file_event ev = false -> no_file_access w (log ev w).
Proof.
  intros Hev. repeat split. exists [ev]. split; [reflexivity|].
  simpl. now rewrite Hev.
Qed.

Lemma sent_no_file_access s E url w : no_file_access w (sent s E url w).
Proof. now apply log_no_file_access. Qed.

Lemma query_body_inj q1 q2 : query_body q1 = query_body q2 -> q1 = q2.
Proof.
  intros H. apply (f_equal (member "query")) in H.
  unfold member, query_body in H.
  rewrite !lookup_singleton_eq in H. congruence.
Qed.

Lemma fetch_schema_of_exception s E url w r v x :
  requests_post E url (query_body (query_of E s)) = Some r ->
  json_loads E (text r) = Some v ->
  (fetch_schema_of s E url w).1 = Raise (Exception x) <-> member "errors" v = Some x.
Proof.
  intros Hpost Hbody. rewrite fetch_schema_of_shape.
  now apply (fetch_exception_iff E _ url w r Hpost).
Qed.

(** ** Whole runs *)

Lemma stored_frame E d w :
  handles (stored E d w).2 = handles w /\
  exists evs, trace (stored E d w).2 = (trace w ++ evs)%list /\ List.filter is_post evs = [].
Proof.
  unfold stored.
  destruct (print_schema E d) as [sdl|]; simpl.
  - destruct (open_denied E "schema.graphql"); simpl.
    + split; [reflexivity|]. now exists [EvOpen "schema.graphql"].
    + destruct (write_fault E "schema.graphql" sdl); simpl;
        (split; [reflexivity|]); eexists; (split; [reflexivity|]); reflexivity.
  - split; [reflexivity|]. exists []. now rewrite app_nil_r.
Qed.

(** The outcome, the files and the later events of [store] do not depend on
    what the trace held before. *)
Lemma stored_after_log E d ev1 ev2 w :
  (stored E d (log ev1 w)).1 = (stored E d (log ev2 w)).1 /\
  files (stored E d (log ev1 w)).2 = files (stored E d (log ev2 w)).2 /\
  handles (stored E d (log ev1 w)).2 = handles (stored E d (log ev2 w)).2 /\
  exists rest,
    trace (stored E d (log ev1 w)).2 = (trace w ++ ev1 :: rest)%list /\
    trace (stored E d (log ev2 w)).2 = (trace w ++ ev2 :: rest)%list.
Proof.
  unfold stored.
  destruct (print_schema E d) as [sdl|]; simpl.
  - destruct (open_denied E "schema.graphql"); simpl.
    + repeat split. eexists. split; now rewrite <- app_assoc.
    + destruct (write_fault E "schema.graphql" sdl); simpl;
        repeat split; eexists; split; now rewrite <- app_assoc.
  - repeat split. now exists [].
Qed.

Lemma main_with_posts q E w :
  List.filter is_post (trace (main_with q E w).2)
  = (List.filter is_post (trace w)
     ++ [EvPost "https://your-graphql-endpoint.com/graphql" (query_body q)])%list.
Proof.
  rewrite main_with_run.
  destruct (fetch_with q E _ w).1 as [d|e].
  - destruct (stored_frame E d
                (log (EvPost "https://your-graphql-endpoint.com/graphql" (query_body q)) w))
      as (_ & evs & -> & Hnone).
    cbn [log trace]. rewrite !List.filter_app, Hnone. simpl. now rewrite app_nil_r.
  - cbn [snd log trace]. now rewrite List.filter_app.
Qed.

(** A run that completes has been through every stage, and the file holds
    what [print_schema] rendered. *)
Lemma main_with_ok q E w :
  (main_with q E w).1 = Ok tt ->
  exists r v d sdl,
    requests_post E "https://your-graphql-endpoint.com/graphql" (query_body q) = Some r /\
    json_loads E (text r) = Some v /\
    inspect v = Ok d /\
    print_schema E d = Some sdl /\
    files (main_with q E w).2 !! "schema.graphql" = Some sdl.
Proof.
  rewrite main_with_run, fetch_with_run. cbn [fst].
  destruct (requests_post E _ (query_body q)) as [r|]; [|discriminate].
  destruct (json_loads E (text r)) as [v|] eqn:Hbody; [|discriminate].
  destruct (inspect v) as [d|e] eqn:Hv; [|discriminate].
  unfold stored.
  destruct (print_schema E d) as [sdl|] eqn:Hsdl; [|discriminate].
  destruct (open_denied E "schema.graphql"); [discriminate|].
  destruct (write_fault E "schema.graphql" sdl); [discriminate|].
  intros _. exists r, v, d, sdl.
  split; [reflexivity|]. split; [exact Hbody|]. split; [exact Hv|].
  split; [exact Hsdl|]. simpl. apply lookup_insert_eq.
Qed.

(** And a run completes as soon as every collaborator does its part. *)
Lemma main_with_completes q E w r v d sdl :
  requests_post E "https://your-graphql-endpoint.com/graphql" (query_body q) = Some r ->
  json_loads E (text r) = Some v ->
  inspect v = Ok d ->
  print_schema E d = Some sdl ->
  open_denied E "schema.graphql" = false ->
  write_fault E "schema.graphql" sdl = None ->
  (main_with q E w).1 = Ok tt /\
  files (main_with q E w).2 = <["schema.graphql" := sdl]> (files w).
Proof.
  intros Hpost Hbody Hv Hsdl Hd Hf.
  rewrite main_with_run, fetch_with_run, Hpost, Hbody, Hv. cbn [fst].
  unfold stored. rewrite Hsdl, Hd, Hf. now split.
Qed.

Lemma query_of_with_status code E s : query_of (with_status code E) s = query_of E s.
Proof. now destruct s. Qed.

Lemma main_ignores_status s code E w :
  main_of s (with_status code E) w = main_of s E w.
Proof.
  rewrite !main_of_shape, !main_with_run, !fetch_with_run, query_of_with_status.
  cbn [with_status requests_post json_loads fst].
  destruct (requests_post E _ (query_body (query_of E s))) as [r|]; [|reflexivity].
  cbn [fmap option_fmap option_map text].
  destruct (json_loads E (text r)) as [v|]; [|reflexivity].
  destruct (inspect v); reflexivity.
Qed.

Lemma post_event_inj url1 body1 url2 body2 :
  [EvPost url1 body1] = [EvPost url2 body2] -> body1 = body2.
Proof. intros H. now injection H. Qed.

(** ** The claims *)

(** C1: when the decoded answer is an object whose [errors] member is a
    non-empty array, [fetch_schema] of [graphql_schema.py] raises [Exception]
    with that array as its argument; [main] raises the same exception right
    after the request, never calls [save_schema], touches no file, and leaves
    [schema.graphql] as it was. *)
Theorem errors_abort_before_write (E : Env) (w : World) (r : Response)
    (members : gmap string json) (e : json) (es : list json) :
  requests_post E Script1.endpoint_url (query_body (lib_introspection_query E)) = Some r ->
  json_loads E (text r) = Some (JObject members) ->
  members !! "errors" = Some (JArray (e :: es)) ->
  Script1.fetch_schema E Script1.endpoint_url w
    = (Raise (Exception (JArray (e :: es))), sent GraphqlSchema E Script1.endpoint_url w) /\
  Script1.main E w
    = (Raise (Exception (JArray (e :: es))), sent GraphqlSchema E Script1.endpoint_url w) /\
  no_file_access w (Script1.main E w).2 /\
  files (Script1.main E w).2 !! "schema.graphql" = files w !! "schema.graphql".
Proof.
  intros Hpost Hbody Herr.
  assert (Hfetch : Script1.fetch_schema E Script1.endpoint_url w
            = (Raise (Exception (JArray (e :: es))),
               sent GraphqlSchema E Script1.endpoint_url w)).
  { rewrite fetch_schema1_shape.
    apply (fetch_errors_member E _ _ w r Hpost (JObject members)); assumption. }
  assert (Hmain : Script1.main E w
            = (Raise (Exception (JArray (e :: es))),
               sent GraphqlSchema E Script1.endpoint_url w)).
  { rewrite main1_shape. apply main_with_raise.
    rewrite fetch_schema1_shape in Hfetch. unfold Script1.endpoint_url in Hfetch.
    now rewrite Hfetch. }
  split; [exact Hfetch|]. split; [exact Hmain|].
  rewrite Hmain. split; [apply sent_no_file_access | reflexivity].
Qed.

Lemma errors_abort_before_write_witness :
  Script1.main failed_env old_world
  = (Raise (Exception (JArray [JObject {[ "message" := JString "introspection disabled" ]}])),
     sent GraphqlSchema failed_env Script1.endpoint_url old_world).
Proof.
  apply (errors_abort_before_write failed_env old_world (mkResponse 200 "{...}")
           {[ "errors" := JArray [JObject {[ "message" := JString "introspection disabled" ]}] ]}
           (JObject {[ "message" := JString "introspection disabled" ]}) []);
    reflexivity.
Defined.

(** C2, as the code has it: in both scripts [fetch_schema] raises
    [Exception x] exactly when the decoded answer is an object that has an
    [errors] member, whose value is [x]; the value itself is not looked at, so
    an empty array raises as well. *)
Theorem validation_fails_iff_errors_member (s : script) (E : Env) (url : string)
    (w : World) (r : Response) (v x : json) :
  requests_post E url (query_body (query_of E s)) = Some r ->
  json_loads E (text r) = Some v ->
  (fetch_schema_of s E url w).1 = Raise (Exception x) <-> member "errors" v = Some x.
Proof.
  intros Hpost Hbody. now apply (fetch_schema_of_exception s E url w r).
Qed.

Lemma validation_fails_iff_errors_member_witness :
  (fetch_schema_of GraphqlSchema2 empty_errors_env Script2.endpoint_url old_world).1
    = Raise (Exception (JArray []))
  <-> member "errors" empty_errors_doc = Some (JArray []).
Proof.
  apply (validation_fails_iff_errors_member GraphqlSchema2 empty_errors_env
           Script2.endpoint_url old_world (mkResponse 200 "{...}"));
    reflexivity.
Defined.

(** Against C2 as worded: the answer [{"errors": [], "data": ...}] has an
    [errors] member that is present and empty, and both scripts raise
    [Exception([])] on it instead of going on to the next stage. *)
Lemma empty_errors_array_still_fails :
  errors_present_and_nonempty empty_errors_doc = false /\
  json_loads empty_errors_env "{...}" = Some empty_errors_doc /\
  (Script1.fetch_schema empty_errors_env Script1.endpoint_url old_world).1
    = Raise (Exception (JArray [])) /\
  (Script2.fetch_schema empty_errors_env Script2.endpoint_url old_world).1
    = Raise (Exception (JArray [])) /\
  (Script1.main empty_errors_env old_world).1 = Raise (Exception (JArray [])) /\
  (Script2.main empty_errors_env old_world).1 = Raise (Exception (JArray [])).
Proof. repeat split; vm_compute; reflexivity. Qed.

(** C3: when the decoded answer has no [errors] member, so that the check of
    [fetch_schema] does not fail, and has a [data] member, [fetch_schema]
    returns that member as it is, and the only effect is the call of
    [requests.post]. *)
Theorem fetch_returns_data_unchanged (s : script) (E : Env) (url : string)
    (w : World) (r : Response) (v d : json) :
  requests_post E url (query_body (query_of E s)) = Some r ->
  json_loads E (text r) = Some v ->
  member "errors" v = None ->
  member "data" v = Some d ->
  fetch_schema_of s E url w = (Ok d, sent s E url w).
Proof.
  intros Hpost Hbody Herr Hdata.
  destruct v; try discriminate. simpl in Herr, Hdata.
  rewrite fetch_schema_of_shape.
  now apply (fetch_data_member E _ url w r Hpost members d).
Qed.

Lemma fetch_returns_data_unchanged_witness :
  fetch_schema_of GraphqlSchema ok_env Script1.endpoint_url old_world
  = (Ok ping_data, sent GraphqlSchema ok_env Script1.endpoint_url old_world).
Proof.
  apply (fetch_returns_data_unchanged GraphqlSchema ok_env Script1.endpoint_url
           old_world (mkResponse 200 "{...}") ok_doc ping_data);
    reflexivity.
Defined.

(** On every path [fetch_schema] calls [requests.post] once, with the URL it
    was given and the body [{"query": q}], and its outcome is the decoder's
    reading of the response that call handed back. *)
Lemma fetch_schema_of_call (s : script) (E : Env) (url : string) (w : World) :
  fetch_schema_of s E url w =
    (match requests_post E url (JObject {[ "query" := JString (query_of E s) ]}) with
     | None => Raise RequestException
     | Some response =>
         match json_loads E (text response) with
         | None => Raise JSONDecodeError
         | Some response_json => inspect response_json
         end
     end,
     log (EvPost url (JObject {[ "query" := JString (query_of E s) ]})) w).
Proof. now rewrite fetch_schema_of_shape, fetch_with_run. Qed.

Lemma follow_step serve n req :
  follow serve (S n) req =
  match serve req with
  | Refused => ([], None)
  | Lost => ([req], None)
  | Answered a =>
      match redirect_target a with
      | None => ([req], Some (mkResponse (answer_status a) (answer_text a)))
      | Some target =>
          let '(later, outcome) := follow serve n (redirected req a target) in
          (req :: later, outcome)
      end
  end.
Proof. reflexivity. Qed.

Lemma new_events_added evs w w' : added evs w w' -> new_events w w' = evs.
Proof. unfold added, new_events. intros ->. apply drop_app_length. Qed.

Lemma new_events_log ev w : new_events w (log ev w) = [ev].
Proof. now apply new_events_added. Qed.

Lemma wire_of_no_post serve evs : List.filter is_post evs = [] -> wire_of serve evs = [].
Proof.
  induction evs as [|ev evs IH]; [reflexivity|].
  destruct ev; simpl; try exact IH. discriminate.
Qed.

Lemma wire_of_post_first serve url body rest :
  List.filter is_post rest = [] ->
  wire_of serve (EvPost url body :: rest)
  = (follow serve max_redirects (post_request url body)).1.
Proof.
  intros Hrest. unfold wire_of at 1. cbn [flat_map]. fold (wire_of serve rest).
  rewrite (wire_of_no_post serve rest Hrest). apply app_nil_r.
Qed.

(** C4, as the code has it: on every path [fetch_schema] calls
    [requests.post] exactly once, with the URL it was given and the body
    [{"query": q}], [q] being the introspection query of the script; its
    outcome is the decoder's reading of the response the call hands back;
    the script never repeats the call.  The HTTP requests on the wire are
    those the library makes of that one call: none when the connection is
    refused, the one POST to the given URL with that body when the request
    is lost or the answer is no redirect, and that POST followed by the
    requests to the redirect targets otherwise. *)
Theorem fetch_schema_calls_post_once (s : script) (serve : WireRequest -> exchange)
    (C : Env) (url : string) (w : World) :
  fetch_schema_of s (library_env serve C) url w =
    (match (follow serve max_redirects
              (post_request url (JObject {[ "query" := JString (query_of C s) ]}))).2 with
     | None => Raise RequestException
     | Some response =>
         match json_loads C (text response) with
         | None => Raise JSONDecodeError
         | Some response_json => inspect response_json
         end
     end,
     log (EvPost url (JObject {[ "query" := JString (query_of C s) ]})) w) /\
  new_events w (fetch_schema_of s (library_env serve C) url w).2
    = [EvPost url (JObject {[ "query" := JString (query_of C s) ]})] /\
  wire_of serve (new_events w (fetch_schema_of s (library_env serve C) url w).2)
    = (follow serve max_redirects
         (post_request url (JObject {[ "query" := JString (query_of C s) ]}))).1 /\
  match serve (post_request url (JObject {[ "query" := JString (query_of C s) ]})) with
  | Refused =>
      wire_of serve (new_events w (fetch_schema_of s (library_env serve C) url w).2) = []
  | Lost =>
      wire_of serve (new_events w (fetch_schema_of s (library_env serve C) url w).2)
      = [post_request url (JObject {[ "query" := JString (query_of C s) ]})]
  | Answered a =>
      match redirect_target a with
      | None =>
          wire_of serve (new_events w (fetch_schema_of s (library_env serve C) url w).2)
          = [post_request url (JObject {[ "query" := JString (query_of C s) ]})]
      | Some target =>
          wire_of serve (new_events w (fetch_schema_of s (library_env serve C) url w).2)
          = post_request url (JObject {[ "query" := JString (query_of C s) ]})
            :: (follow serve (Nat.pred max_redirects)
                  (redirected
                     (post_request url (JObject {[ "query" := JString (query_of C s) ]}))
                     a target)).1
      end
  end.
Proof.
  assert (Hq : query_of (library_env serve C) s = query_of C s) by now destruct s.
  assert (Hrun := fetch_schema_of_call s (library_env serve C) url w).
  rewrite Hq in Hrun. cbn [library_env requests_post json_loads] in Hrun.
  split; [exact Hrun|].
  rewrite Hrun. cbn [snd]. rewrite new_events_log.
  split; [reflexivity|].
  rewrite (wire_of_post_first serve url _ []) by reflexivity.
  split; [reflexivity|].
  unfold max_redirects. change (Nat.pred 30) with 29. rewrite follow_step.
  destruct (serve (post_request url _)) as [| |a]; try reflexivity.
  destruct (redirect_target a) as [target|]; [|reflexivity].
  match goal with
  | |- context [follow serve 29 ?next] => now destruct (follow serve 29 next)
  end.
Qed.

(** Against C4 as worded: in front of a server that answers the endpoint with
    307 and a new location, the one call that [fetch_schema] makes puts two
    POST requests on the wire, the second one to another URL than the one it
    was given; the run itself goes on and returns the [data] member. *)
Lemma redirect_makes_two_posts :
  (Script1.fetch_schema moved_env Script1.endpoint_url old_world).1 = Ok ping_data /\
  wire_of moved_server
    (new_events old_world (Script1.fetch_schema moved_env Script1.endpoint_url old_world).2)
  = [post_request Script1.endpoint_url (query_body (lib_introspection_query moved_env));
     post_request "https://eu.your-graphql-endpoint.com/graphql"
       (query_body (lib_introspection_query moved_env))].
Proof. split; vm_compute; reflexivity. Qed.

(** In front of a server that answers at once, the one call is one POST. *)
Example plain_answer_makes_one_post :
  wire_of plain_server
    (new_events old_world
       (Script2.fetch_schema (library_env plain_server ok_env) Script2.endpoint_url
          old_world).2)
  = [post_request Script2.endpoint_url (query_body Script2.introspection_query)].
Proof. vm_compute; reflexivity. Qed.

(** C5: when the body of the answer is not valid JSON, [main] raises the
    decode error right after the request; no file is opened, written or
    closed and the files are what they were. *)
Theorem undecodable_body_fails_without_file (s : script) (E : Env) (w : World)
    (r : Response) :
  requests_post E (endpoint_url_of s) (query_body (query_of E s)) = Some r ->
  json_loads E (text r) = None ->
  main_of s E w = (Raise JSONDecodeError, sent s E (endpoint_url_of s) w) /\
  no_file_access w (main_of s E w).2.
Proof.
  intros Hpost Hbody.
  assert (Hmain : main_of s E w = (Raise JSONDecodeError, sent s E (endpoint_url_of s) w)).
  { rewrite main_of_shape, endpoint_url_same in *. apply main_with_raise.
    now rewrite (fetch_undecodable E _ _ w r Hpost Hbody). }
  split; [exact Hmain|]. rewrite Hmain. apply sent_no_file_access.
Qed.

Lemma undecodable_body_fails_without_file_witness :
  main_of GraphqlSchema html_env old_world
  = (Raise JSONDecodeError, sent GraphqlSchema html_env Script1.endpoint_url old_world).
Proof.
  apply (undecodable_body_fails_without_file GraphqlSchema html_env old_world
           (mkResponse 502 "<html>Bad Gateway</html>"));
    reflexivity.
Defined.

(** C7: [save_schema] opens [path] for writing first; on every exit path the
    descriptors that are open afterwards are those that were open before; it
    succeeds exactly when the open is allowed and the write has no fault, and
    then the file holds [sdlText] and nothing else; whenever the open is
    allowed the former content is gone and the file holds a prefix of
    [sdlText] (all of it, or what a failing write stored); other files are
    not changed. *)
Theorem save_schema_writes_and_releases (s : script) (E : Env)
    (sdlText path : string) (w : World) :
  handles (save_schema_of s E sdlText path w).2 = handles w /\
  (exists rest,
     trace (save_schema_of s E sdlText path w).2 = (trace w ++ EvOpen path :: rest)%list) /\
  ((save_schema_of s E sdlText path w).1 = Ok tt <->
     open_denied E path = false /\ write_fault E path sdlText = None) /\
  ((save_schema_of s E sdlText path w).1 = Ok tt ->
     files (save_schema_of s E sdlText path w).2 !! path = Some sdlText) /\
  (open_denied E path = false ->
     exists stored_text,
       files (save_schema_of s E sdlText path w).2 !! path = Some stored_text /\
       String.prefix stored_text sdlText = true) /\
  (open_denied E path = true -> files (save_schema_of s E sdlText path w).2 = files w) /\
  (forall other, other <> path ->
     files (save_schema_of s E sdlText path w).2 !! other = files w !! other).
Proof.
  assert (Hshape : save_schema_of s E sdlText path w
            = with_open_w E path (fun f => py_write E f sdlText) w)
    by (destruct s; reflexivity).
  rewrite Hshape. clear Hshape.
  destruct (open_denied E path) eqn:Hd.
  - rewrite (save_denied E sdlText path w Hd). simpl.
    repeat split; try discriminate; try tauto.
    + now exists [].
    + intros [? _]. discriminate.
  - destruct (write_fault E path sdlText) as [n|] eqn:Hf.
    + rewrite (save_torn E sdlText path w n Hd Hf). simpl.
      repeat split; try discriminate.
      * eexists. reflexivity.
      * intros [_ ?]. discriminate.
      * intros _. exists (String.substring 0 n sdlText).
        split; [apply lookup_insert_eq | apply prefix_substring].
      * intros other Hne. now apply lookup_insert_ne.
    + rewrite (save_stored E sdlText path w Hd Hf). simpl.
      repeat split; try discriminate.
      * eexists. reflexivity.
      * intros _. apply lookup_insert_eq.
      * intros _. exists sdlText. split; [apply lookup_insert_eq | apply prefix_refl].
      * intros other Hne. now apply lookup_insert_ne.
Qed.

(** C6, as the code has it: the two scripts read the same endpoint constant
    and differ in one place, the query they post: [graphql_schema.py] posts
    the constant it imports from the graphql package, [graphql_schema2.py]
    its own literal.  When the endpoint gives both requests the same answer,
    the two [main] functions end with the same outcome, the same files and
    the same open descriptors, and add the same events after the request; the
    requests are the same exactly when the two query texts are, and then the
    runs are identical. *)
Theorem scripts_agree_up_to_query (E : Env) (w : World) :
  requests_post E Script1.endpoint_url (query_body (lib_introspection_query E))
    = requests_post E Script2.endpoint_url (query_body Script2.introspection_query) ->
  Script1.endpoint_url = Script2.endpoint_url /\
  (Script1.main E w).1 = (Script2.main E w).1 /\
  files (Script1.main E w).2 = files (Script2.main E w).2 /\
  handles (Script1.main E w).2 = handles (Script2.main E w).2 /\
  (exists rest,
     trace (Script1.main E w).2
       = (trace w ++ EvPost Script1.endpoint_url
                       (query_body (lib_introspection_query E)) :: rest)%list /\
     trace (Script2.main E w).2
       = (trace w ++ EvPost Script2.endpoint_url
                       (query_body Script2.introspection_query) :: rest)%list) /\
  (List.filter is_post (trace (Script1.main E w).2)
     = List.filter is_post (trace (Script2.main E w).2)
   <-> lib_introspection_query E = Script2.introspection_query) /\
  (lib_introspection_query E = Script2.introspection_query ->
   Script1.main E w = Script2.main E w).
Proof.
  intros Hsame. split; [reflexivity|].
  assert (Hruns :
    (Script1.main E w).1 = (Script2.main E w).1 /\
    files (Script1.main E w).2 = files (Script2.main E w).2 /\
    handles (Script1.main E w).2 = handles (Script2.main E w).2 /\
    exists rest,
      trace (Script1.main E w).2
        = (trace w ++ EvPost Script1.endpoint_url
                        (query_body (lib_introspection_query E)) :: rest)%list /\
      trace (Script2.main E w).2
        = (trace w ++ EvPost Script2.endpoint_url
                        (query_body Script2.introspection_query) :: rest)%list).
  { rewrite main1_shape, main2_shape, !main_with_run, !fetch_with_run.
    unfold Script1.endpoint_url, Script2.endpoint_url in *. rewrite Hsame. cbn [fst].
    destruct (requests_post E _ (query_body Script2.introspection_query)) as [r|];
      [|repeat split; now exists []].
    destruct (json_loads E (text r)) as [v|]; [|repeat split; now exists []].
    destruct (inspect v) as [d|e]; [|repeat split; now exists []].
    apply stored_after_log. }
  destruct Hruns as (Hr & Hf & Hh & Ht).
  repeat (split; [assumption|]).
  split; [split|].
  - rewrite main1_shape, main2_shape, !main_with_posts.
    intros Heq. apply app_inv_head, post_event_inj in Heq.
    now apply query_body_inj.
  - intros Hq. rewrite main1_shape, main2_shape, !main_with_posts. now rewrite Hq.
  - intros Hq. rewrite main1_shape, main2_shape. now rewrite Hq.
Qed.

Lemma scripts_agree_up_to_query_witness :
  (Script1.main ok_env old_world).1 = (Script2.main ok_env old_world).1 /\
  files (Script1.main ok_env old_world).2 = files (Script2.main ok_env old_world).2.
Proof.
  destruct (scripts_agree_up_to_query ok_env old_world) as (_ & Hr & Hf & _);
    [reflexivity|].
  split; [exact Hr | exact Hf].
Defined.

(** Against C6 as worded: with a graphql package whose constant is another
    document than the literal of [graphql_schema2.py], and an endpoint that
    answers both requests alike, the two scripts do not send the same
    request. *)
Lemma scripts_post_different_queries :
  requests_post ok_env Script1.endpoint_url (query_body (lib_introspection_query ok_env))
    = requests_post ok_env Script2.endpoint_url (query_body Script2.introspection_query) /\
  List.filter is_post (trace (Script1.main ok_env old_world).2)
    <> List.filter is_post (trace (Script2.main ok_env old_world).2).
Proof.
  split; [reflexivity|].
  rewrite main1_shape, main2_shape, !main_with_posts.
  intros Heq. apply app_inv_head, post_event_inj, query_body_inj in Heq.
  discriminate Heq.
Qed.

(** C8: two runs that complete and whose answers carry the same body leave
    the same text in [schema.graphql], whatever the files held before, the
    status codes, and the descriptors in use; the text is the rendering of the
    [data] member of that body. *)
Theorem same_body_same_file_content (s : script) (E1 E2 : Env) (w1 w2 : World)
    (r1 r2 : Response) :
  (forall body, json_loads E1 body = json_loads E2 body) ->
  (forall data, print_schema E1 data = print_schema E2 data) ->
  requests_post E1 (endpoint_url_of s) (query_body (query_of E1 s)) = Some r1 ->
  requests_post E2 (endpoint_url_of s) (query_body (query_of E2 s)) = Some r2 ->
  text r1 = text r2 ->
  (main_of s E1 w1).1 = Ok tt ->
  (main_of s E2 w2).1 = Ok tt ->
  exists sdl,
    files (main_of s E1 w1).2 !! "schema.graphql" = Some sdl /\
    files (main_of s E2 w2).2 !! "schema.graphql" = Some sdl.
Proof.
  intros Hloads Hprint Hpost1 Hpost2 Htext Hrun1 Hrun2.
  rewrite (main_of_shape s E1), (main_of_shape s E2) in *.
  rewrite endpoint_url_same in *.
  destruct (main_with_ok _ _ _ Hrun1) as (r1' & v1 & d1 & sdl1 & Hp1 & Hb1 & Hv1 & Hs1 & Hfile1).
  destruct (main_with_ok _ _ _ Hrun2) as (r2' & v2 & d2 & sdl2 & Hp2 & Hb2 & Hv2 & Hs2 & Hfile2).
  rewrite Hpost1 in Hp1. rewrite Hpost2 in Hp2.
  injection Hp1 as <-. injection Hp2 as <-.
  rewrite Hloads, Htext, Hb2 in Hb1. injection Hb1 as <-.
  rewrite Hv2 in Hv1. injection Hv1 as <-.
  rewrite Hprint, Hs2 in Hs1. injection Hs1 as <-.
  exists sdl2. now split.
Qed.

Lemma same_body_same_file_content_witness :
  exists sdl,
    files (main_of GraphqlSchema ok_env old_world).2 !! "schema.graphql" = Some sdl /\
    files (main_of GraphqlSchema (with_status 203 ok_env)
             (main_of GraphqlSchema ok_env old_world).2).2 !! "schema.graphql" = Some sdl.
Proof.
  apply (same_body_same_file_content GraphqlSchema ok_env (with_status 203 ok_env)
           old_world (main_of GraphqlSchema ok_env old_world).2
           (mkResponse 200 "{...}") (mkResponse 203 "{...}"));
    try reflexivity; vm_compute; reflexivity.
Defined.

(** C9: the status code of the answer plays no part: a run gives the same
    outcome and the same world under any status code, and an answer outside
    2xx whose body is not valid JSON makes [fetch_schema] and [main] of both
    scripts raise the decode error, not the error of a failed request. *)
Theorem status_code_never_inspected (s : script) (E : Env) (w : World) (r : Response) :
  requests_post E (endpoint_url_of s) (query_body (query_of E s)) = Some r ->
  ~ (200 <= status_code r < 300)%Z ->
  json_loads E (text r) = None ->
  (fetch_schema_of s E (endpoint_url_of s) w).1 = Raise JSONDecodeError /\
  (main_of s E w).1 = Raise JSONDecodeError /\
  (main_of s E w).1 <> Raise RequestException /\
  forall code, main_of s (with_status code E) w = main_of s E w.
Proof.
  intros Hpost _ Hbody.
  assert (Hfetch : (fetch_schema_of s E (endpoint_url_of s) w).1 = Raise JSONDecodeError).
  { rewrite fetch_schema_of_shape.
    now rewrite (fetch_undecodable E _ _ w r Hpost Hbody). }
  assert (Hmain : (main_of s E w).1 = Raise JSONDecodeError).
  { rewrite main_of_shape. rewrite fetch_schema_of_shape, endpoint_url_same in Hfetch.
    now rewrite (main_with_raise _ _ _ _ Hfetch). }
  split; [exact Hfetch|]. split; [exact Hmain|].
  split; [rewrite Hmain; discriminate|].
  intros code. apply main_ignores_status.
Qed.

Lemma status_code_never_inspected_witness :
  (main_of GraphqlSchema2 html_env old_world).1 = Raise JSONDecodeError.
Proof.
  destruct (status_code_never_inspected GraphqlSchema2 html_env old_world
              (mkResponse 502 "<html>Bad Gateway</html>")) as (_ & Hmain & _);
    [reflexivity | simpl; lia | reflexivity | exact Hmain].
Defined.

(** C10: when the decoded answer is an object with neither an [errors] nor a
    [data] member, [fetch_schema] of both scripts raises [KeyError('data')],
    [main] lets it through, and no file is touched. *)
Theorem missing_data_is_key_error (s : script) (E : Env) (w : World) (r : Response)
    (members : gmap string json) :
  requests_post E (endpoint_url_of s) (query_body (query_of E s)) = Some r ->
  json_loads E (text r) = Some (JObject members) ->
  members !! "errors" = None ->
  members !! "data" = None ->
  fetch_schema_of s E (endpoint_url_of s) w
    = (Raise (KeyError "data"), sent s E (endpoint_url_of s) w) /\
  main_of s E w = (Raise (KeyError "data"), sent s E (endpoint_url_of s) w) /\
  no_file_access w (main_of s E w).2.
Proof.
  intros Hpost Hbody Herr Hdata.
  assert (Hfetch : fetch_schema_of s E (endpoint_url_of s) w
            = (Raise (KeyError "data"), sent s E (endpoint_url_of s) w)).
  { rewrite fetch_schema_of_shape.
    now apply (fetch_no_data E _ _ w r Hpost members). }
  assert (Hmain : main_of s E w
            = (Raise (KeyError "data"), sent s E (endpoint_url_of s) w)).
  { rewrite main_of_shape. rewrite fetch_schema_of_shape in Hfetch.
    rewrite endpoint_url_same in *. apply main_with_raise. now rewrite Hfetch. }
  split; [exact Hfetch|]. split; [exact Hmain|].
  rewrite Hmain. apply sent_no_file_access.
Qed.

Lemma missing_data_is_key_error_witness :
  main_of GraphqlSchema2 bare_env old_world
  = (Raise (KeyError "data"), sent GraphqlSchema2 bare_env Script2.endpoint_url old_world).
Proof.
  apply (missing_data_is_key_error GraphqlSchema2 bare_env old_world
           (mkResponse 200 "{...}") {[ "extensions" := JNull ]});
    reflexivity.
Defined.

(** ** Sample runs *)

(** The scenario of a healthy endpoint: one request, the file replaced by the
    rendering, the descriptor closed, the confirmation printed. *)
Example run_stores_rendering :
  (Script1.main ok_env old_world).1 = Ok tt /\
  files (Script1.main ok_env old_world).2 !! "schema.graphql" = Some ping_sdl /\
  handles (Script1.main ok_env old_world).2 = handles old_world /\
  List.map (fun ev => (is_post ev, is_file_event ev)) (trace (Script1.main ok_env old_world).2)
    = [(true, false); (false, true); (false, true); (false, true); (false, false)].
Proof. repeat split; vm_compute; reflexivity. Qed.

(** A write that fails after four characters: the exception leaves [main],
    the descriptor is closed all the same, and the file holds the four
    characters in place of its former content. *)
Example run_with_torn_write :
  let E := sample_env 200 "{...}" (Some ok_doc) ping_sdl false (Some 4) in
  (Script2.main E old_world).1 = Raise OSError /\
  files (Script2.main E old_world).2 !! "schema.graphql" = Some "type" /\
  handles (Script2.main E old_world).2 = handles old_world.
Proof. repeat split; vm_compute; reflexivity. Qed.

(** An answer that is an array, not an object: the membership test sees no
    string [errors] in it and the subscript with [data] is refused. *)
Example run_on_array_answer :
  let E := sample_env 200 "[]" (Some (JArray [])) ping_sdl false None in
  Script1.main E old_world
  = (Raise TypeError, sent GraphqlSchema E Script1.endpoint_url old_world).
Proof. vm_compute; reflexivity. Qed.

(** * Further properties of the two scripts *)

(** ** Helpers *)

Lemma main_of_run s E w :
  main_of s E w =
  match (fetch_schema_of s E (endpoint_url_of s) w).1 with
  | Ok d => stored E d (sent s E (endpoint_url_of s) w)
  | Raise e => (Raise e, sent s E (endpoint_url_of s) w)
  end.
Proof.
  rewrite main_of_shape, fetch_schema_of_shape, endpoint_url_same.
  apply main_with_run.
Qed.

Lemma fetch_schema_of_world s E url w :
  (fetch_schema_of s E url w).2 = sent s E url w.
Proof. now rewrite fetch_schema_of_shape, fetch_with_run. Qed.

(** What [fetch_schema] returns or raises does not depend on the world. *)
Lemma fetch_schema_of_outcome s E url w1 w2 :
  (fetch_schema_of s E url w1).1 = (fetch_schema_of s E url w2).1.
Proof. now rewrite !fetch_schema_of_shape, !fetch_with_run. Qed.

Lemma main_of_raise s E w e :
  (fetch_schema_of s E (endpoint_url_of s) w).1 = Raise e ->
  main_of s E w = (Raise e, sent s E (endpoint_url_of s) w).
Proof. intros H. now rewrite main_of_run, H. Qed.

Lemma main_of_ok_inv s E w :
  (main_of s E w).1 = Ok tt ->
  exists d sdl,
    (fetch_schema_of s E (endpoint_url_of s) w).1 = Ok d /\
    print_schema E d = Some sdl /\
    open_denied E "schema.graphql" = false /\
    write_fault E "schema.graphql" sdl = None.
Proof.
  rewrite main_of_run.
  destruct (fetch_schema_of s E (endpoint_url_of s) w).1 as [d|e]; [|discriminate].
  unfold stored.
  destruct (print_schema E d) as [sdl|] eqn:Hsdl; [|discriminate].
  destruct (open_denied E "schema.graphql") eqn:Hd; [discriminate|].
  destruct (write_fault E "schema.graphql" sdl) eqn:Hf; [discriminate|].
  intros _. now exists d, sdl.
Qed.

Lemma main_of_ok_run s E w d sdl :
  (fetch_schema_of s E (endpoint_url_of s) w).1 = Ok d ->
  print_schema E d = Some sdl ->
  open_denied E "schema.graphql" = false ->
  write_fault E "schema.graphql" sdl = None ->
  main_of s E w =
  (Ok tt,
   mkWorld (<["schema.graphql" := sdl]> (files w)) (handles w)
           (trace w ++ [EvPost (endpoint_url_of s) (query_body (query_of E s));
                        EvOpen "schema.graphql";
                        EvWrite (fresh (dom (handles w))) sdl;
                        EvClose (fresh (dom (handles w)));
                        EvPrint "Schema saved successfully."])).
Proof.
  intros Hfetch Hsdl Hd Hf. rewrite main_of_run, Hfetch. unfold stored.
  rewrite Hsdl, Hd, Hf. cbn [sent log files handles trace].
  now rewrite <- app_assoc.
Qed.

(** ** Failures before the file is opened *)

(** X1: when the endpoint cannot be reached, [fetch_schema] raises the error
    of [requests] after the one attempt, [main] lets it through, and no file
    is touched. *)
Theorem unreachable_endpoint_fails_without_file (s : script) (E : Env) (w : World) :
  requests_post E (endpoint_url_of s) (query_body (query_of E s)) = None ->
  fetch_schema_of s E (endpoint_url_of s) w
    = (Raise RequestException, sent s E (endpoint_url_of s) w) /\
  main_of s E w = (Raise RequestException, sent s E (endpoint_url_of s) w) /\
  no_file_access w (main_of s E w).2.
Proof.
  intros Hpost.
  assert (Hfetch : fetch_schema_of s E (endpoint_url_of s) w
            = (Raise RequestException, sent s E (endpoint_url_of s) w)).
  { rewrite fetch_schema_of_shape. now apply fetch_unreachable. }
  assert (Hmain : main_of s E w = (Raise RequestException, sent s E (endpoint_url_of s) w)).
  { apply main_of_raise. now rewrite Hfetch. }
  split; [exact Hfetch|]. split; [exact Hmain|].
  rewrite Hmain. apply sent_no_file_access.
Qed.

Lemma unreachable_endpoint_fails_without_file_witness :
  main_of GraphqlSchema unreachable_env busy_world
  = (Raise RequestException, sent GraphqlSchema unreachable_env Script1.endpoint_url busy_world).
Proof.
  apply (unreachable_endpoint_fails_without_file GraphqlSchema unreachable_env busy_world).
  reflexivity.
Defined.

(** X2: when the decoded answer is not an object (an array, a string, a
    number, a boolean, null), [fetch_schema] raises [TypeError], also when
    the array holds the string [errors] or the string contains it; [main]
    lets it through and no file is touched. *)
Theorem non_object_answer_is_type_error (s : script) (E : Env) (w : World)
    (r : Response) (v : json) :
  requests_post E (endpoint_url_of s) (query_body (query_of E s)) = Some r ->
  json_loads E (text r) = Some v ->
  (forall members, v <> JObject members) ->
  fetch_schema_of s E (endpoint_url_of s) w
    = (Raise TypeError, sent s E (endpoint_url_of s) w) /\
  main_of s E w = (Raise TypeError, sent s E (endpoint_url_of s) w) /\
  no_file_access w (main_of s E w).2.
Proof.
  intros Hpost Hbody Hshape.
  assert (Hfetch : fetch_schema_of s E (endpoint_url_of s) w
            = (Raise TypeError, sent s E (endpoint_url_of s) w)).
  { rewrite fetch_schema_of_shape. now apply (fetch_not_object E _ _ w r Hpost v). }
  assert (Hmain : main_of s E w = (Raise TypeError, sent s E (endpoint_url_of s) w)).
  { apply main_of_raise. now rewrite Hfetch. }
  split; [exact Hfetch|]. split; [exact Hmain|].
  rewrite Hmain. apply sent_no_file_access.
Qed.

Lemma non_object_answer_is_type_error_witness :
  main_of GraphqlSchema2 array_env busy_world
  = (Raise TypeError, sent GraphqlSchema2 array_env Script2.endpoint_url busy_world).
Proof.
  apply (non_object_answer_is_type_error GraphqlSchema2 array_env busy_world
           (mkResponse 200 "[...]") array_doc);
    [reflexivity | reflexivity | discriminate].
Defined.

(** X3: an [errors] member wins over a [data] member: whatever its value
    (null, an empty array, a string), and whether or not [data] is there,
    [fetch_schema] returns nothing, [main] raises [Exception] with that value
    and no file is touched. *)
Theorem errors_member_discards_data (s : script) (E : Env) (w : World)
    (r : Response) (members : gmap string json) (x : json) :
  requests_post E (endpoint_url_of s) (query_body (query_of E s)) = Some r ->
  json_loads E (text r) = Some (JObject members) ->
  members !! "errors" = Some x ->
  (forall d, (fetch_schema_of s E (endpoint_url_of s) w).1 <> Ok d) /\
  main_of s E w = (Raise (Exception x), sent s E (endpoint_url_of s) w) /\
  no_file_access w (main_of s E w).2.
Proof.
  intros Hpost Hbody Herr.
  assert (Hfetch : fetch_schema_of s E (endpoint_url_of s) w
            = (Raise (Exception x), sent s E (endpoint_url_of s) w)).
  { rewrite fetch_schema_of_shape.
    now apply (fetch_errors_member E _ _ w r Hpost (JObject members)). }
  assert (Hmain : main_of s E w = (Raise (Exception x), sent s E (endpoint_url_of s) w)).
  { apply main_of_raise. now rewrite Hfetch. }
  split; [intros d; rewrite Hfetch; discriminate|].
  split; [exact Hmain|]. rewrite Hmain. apply sent_no_file_access.
Qed.

Lemma errors_member_discards_data_witness :
  main_of GraphqlSchema null_errors_env busy_world
  = (Raise (Exception JNull), sent GraphqlSchema null_errors_env Script1.endpoint_url busy_world).
Proof.
  apply (errors_member_discards_data GraphqlSchema null_errors_env busy_world
           (mkResponse 200 "{...}") (<[ "errors" := JNull ]> {[ "data" := ping_data ]}));
    reflexivity.
Defined.

(** X4: when [fetch_schema] returned and [print_schema] raises, [main] raises
    that error with nothing done after the request: no file is opened and
    [schema.graphql] keeps its content. *)
Theorem unprintable_data_fails_without_file (s : script) (E : Env) (w : World) (d : json) :
  (fetch_schema_of s E (endpoint_url_of s) w).1 = Ok d ->
  print_schema E d = None ->
  main_of s E w = (Raise SchemaPrintError, sent s E (endpoint_url_of s) w) /\
  no_file_access w (main_of s E w).2.
Proof.
  intros Hfetch Hsdl.
  assert (Hmain : main_of s E w = (Raise SchemaPrintError, sent s E (endpoint_url_of s) w)).
  { rewrite main_of_run, Hfetch. unfold stored. now rewrite Hsdl. }
  split; [exact Hmain|]. rewrite Hmain. apply sent_no_file_access.
Qed.

Lemma unprintable_data_fails_without_file_witness :
  main_of GraphqlSchema unprintable_env busy_world
  = (Raise SchemaPrintError, sent GraphqlSchema unprintable_env Script1.endpoint_url busy_world).
Proof.
  apply (unprintable_data_fails_without_file GraphqlSchema unprintable_env busy_world ping_data);
    reflexivity.
Defined.

(** ** Failures of the file layer *)

(** X5: when the rendering is in hand and [schema.graphql] cannot be opened
    for writing, [main] raises [OSError] right after the attempt: nothing is
    written or printed, every file is as before and no descriptor is left. *)
Theorem refused_open_keeps_files (s : script) (E : Env) (w : World) (d : json)
    (sdl : string) :
  (fetch_schema_of s E (endpoint_url_of s) w).1 = Ok d ->
  print_schema E d = Some sdl ->
  open_denied E "schema.graphql" = true ->
  main_of s E w
    = (Raise OSError, log (EvOpen "schema.graphql") (sent s E (endpoint_url_of s) w)) /\
  files (main_of s E w).2 = files w /\
  handles (main_of s E w).2 = handles w.
Proof.
  intros Hfetch Hsdl Hd.
  assert (Hmain : main_of s E w
            = (Raise OSError, log (EvOpen "schema.graphql") (sent s E (endpoint_url_of s) w))).
  { rewrite main_of_run, Hfetch. unfold stored. now rewrite Hsdl, Hd. }
  rewrite Hmain. now repeat split.
Qed.

Lemma refused_open_keeps_files_witness :
  files (main_of GraphqlSchema denied_env busy_world).2 = files busy_world.
Proof.
  destruct (refused_open_keeps_files GraphqlSchema denied_env busy_world ping_data ping_sdl)
    as (_ & Hfiles & _); [reflexivity | reflexivity | reflexivity | exact Hfiles].
Defined.

(** X6: when the write fails after [n] characters, [main] raises [OSError];
    the former content of [schema.graphql] is gone and the file holds the
    first [n] characters of the rendering; the descriptor has been closed
    after the write and the confirmation is not printed. *)
Theorem failed_write_leaves_partial_file (s : script) (E : Env) (w : World) (d : json)
    (sdl : string) (n : nat) :
  (fetch_schema_of s E (endpoint_url_of s) w).1 = Ok d ->
  print_schema E d = Some sdl ->
  open_denied E "schema.graphql" = false ->
  write_fault E "schema.graphql" sdl = Some n ->
  (main_of s E w).1 = Raise OSError /\
  files (main_of s E w).2 = <["schema.graphql" := String.substring 0 n sdl]> (files w) /\
  handles (main_of s E w).2 = handles w /\
  trace (main_of s E w).2
    = (trace w ++ [EvPost (endpoint_url_of s) (query_body (query_of E s));
                   EvOpen "schema.graphql";
                   EvWrite (fresh (dom (handles w))) sdl;
                   EvClose (fresh (dom (handles w)))])%list.
Proof.
  intros Hfetch Hsdl Hd Hf.
  rewrite main_of_run, Hfetch. unfold stored. rewrite Hsdl, Hd, Hf.
  cbn [fst snd sent log files handles trace].
  repeat split. now rewrite <- app_assoc.
Qed.

Lemma failed_write_leaves_partial_file_witness :
  files (main_of GraphqlSchema2 torn_env busy_world).2
  = <["schema.graphql" := String.substring 0 4 ping_sdl]> (files busy_world).
Proof.
  destruct (failed_write_leaves_partial_file GraphqlSchema2 torn_env busy_world
              ping_data ping_sdl 4) as (_ & Hfiles & _);
    [reflexivity | reflexivity | reflexivity | reflexivity | exact Hfiles].
Defined.

(** ** Runs that complete *)

(** X7: [main] completes exactly when every stage does: [fetch_schema]
    returns a value, [print_schema] renders it, the open is allowed and the
    write has no fault. *)
Theorem main_completes_iff_all_stages (s : script) (E : Env) (w : World) :
  (main_of s E w).1 = Ok tt <->
  exists d sdl,
    (fetch_schema_of s E (endpoint_url_of s) w).1 = Ok d /\
    print_schema E d = Some sdl /\
    open_denied E "schema.graphql" = false /\
    write_fault E "schema.graphql" sdl = None.
Proof.
  split.
  - apply main_of_ok_inv.
  - intros (d & sdl & Hfetch & Hsdl & Hd & Hf).
    now rewrite (main_of_ok_run s E w d sdl Hfetch Hsdl Hd Hf).
Qed.

(** X8: a run that completes has done, in this order and nothing else: the
    request, the open of [schema.graphql], one write of the whole rendering
    to the descriptor the open gave (one that was not in use), the close of
    that descriptor, and the print of the confirmation; afterwards
    [schema.graphql] holds the rendering, every other file is as before and
    the open descriptors are those of the start. *)
Theorem completed_run_effects (s : script) (E : Env) (w : World) (d : json)
    (sdl : string) :
  (fetch_schema_of s E (endpoint_url_of s) w).1 = Ok d ->
  print_schema E d = Some sdl ->
  (main_of s E w).1 = Ok tt ->
  handles w !! fresh (dom (handles w)) = None /\
  added [EvPost (endpoint_url_of s) (query_body (query_of E s));
         EvOpen "schema.graphql";
         EvWrite (fresh (dom (handles w))) sdl;
         EvClose (fresh (dom (handles w)));
         EvPrint "Schema saved successfully."] w (main_of s E w).2 /\
  files (main_of s E w).2 = <["schema.graphql" := sdl]> (files w) /\
  handles (main_of s E w).2 = handles w.
Proof.
  intros Hfetch Hsdl Hrun.
  destruct (main_of_ok_inv s E w Hrun) as (d' & sdl' & Hfetch' & Hsdl' & Hd & Hf).
  rewrite Hfetch in Hfetch'. injection Hfetch' as <-.
  rewrite Hsdl in Hsdl'. injection Hsdl' as <-.
  rewrite (main_of_ok_run s E w d sdl Hfetch Hsdl Hd Hf).
  split; [apply fresh_descriptor_unused|]. now repeat split.
Qed.

Lemma completed_run_effects_witness :
  files (main_of GraphqlSchema ok_env busy_world).2
  = <["schema.graphql" := ping_sdl]> (files busy_world).
Proof.
  destruct (completed_run_effects GraphqlSchema ok_env busy_world ping_data ping_sdl)
    as (_ & _ & Hfiles & _);
    [reflexivity | reflexivity | vm_compute; reflexivity | exact Hfiles].
Defined.

(** X9: the confirmation [Schema saved successfully.] is printed exactly by
    the runs that complete: a run that raises, at whatever stage, has not
    printed it. *)
Theorem confirmation_printed_iff_completed (s : script) (E : Env) (w : World) :
  exists evs,
    added evs w (main_of s E w).2 /\
    (In (EvPrint "Schema saved successfully.") evs <-> (main_of s E w).1 = Ok tt).
Proof.
  rewrite main_of_run.
  destruct (fetch_schema_of s E (endpoint_url_of s) w).1 as [d|e].
  - unfold stored. destruct (print_schema E d) as [sdl|].
    + destruct (open_denied E "schema.graphql").
      * eexists. split; [unfold added; cbn [snd sent log trace];
                         rewrite <- app_assoc; reflexivity|].
        simpl. intuition discriminate.
      * destruct (write_fault E "schema.graphql" sdl).
        -- eexists. split; [unfold added; cbn [snd sent log trace];
                            rewrite <- app_assoc; reflexivity|].
           simpl. intuition discriminate.
        -- eexists. split; [unfold added; cbn [snd sent log trace];
                            rewrite <- app_assoc; reflexivity|].
           simpl. intuition.
    + eexists. split; [reflexivity|]. simpl. intuition discriminate.
  - eexists. split; [reflexivity|]. simpl. intuition discriminate.
Qed.

(** ** What holds on every path *)

(** The world a run ends in, stage by stage. *)
Lemma main_of_frame s E w :
  handles (main_of s E w).2 = handles w /\
  (forall other, other <> "schema.graphql" ->
     files (main_of s E w).2 !! other = files w !! other) /\
  exists rest,
    trace (main_of s E w).2
      = (trace w ++ EvPost (endpoint_url_of s) (query_body (query_of E s)) :: rest)%list /\
    List.filter is_post rest = [].
Proof.
  rewrite main_of_run.
  destruct (fetch_schema_of s E (endpoint_url_of s) w).1 as [d|e].
  - unfold stored. destruct (print_schema E d) as [sdl|].
    + destruct (open_denied E "schema.graphql").
      * cbn [snd sent log files handles trace]. repeat split.
        eexists. split; [rewrite <- app_assoc; reflexivity | reflexivity].
      * destruct (write_fault E "schema.graphql" sdl);
          cbn [snd sent log files handles trace]; (split; [reflexivity|]);
          (split; [intros other Hne; now apply lookup_insert_ne|]);
          eexists; (split; [rewrite <- app_assoc; reflexivity | reflexivity]).
    + cbn [snd sent log files handles trace]. repeat split. now exists [].
  - cbn [snd sent log files handles trace]. repeat split. now exists [].
Qed.

(** X10: whatever happens, [main] leaves no descriptor behind: the open
    descriptors after the run are those before it, on the paths that raise as
    on the one that completes. *)
Theorem main_leaves_no_descriptor (s : script) (E : Env) (w : World) :
  handles (main_of s E w).2 = handles w.
Proof. apply main_of_frame. Qed.

(** X11: [main] changes no file other than [schema.graphql], on any path. *)
Theorem main_keeps_other_files (s : script) (E : Env) (w : World) (other : string) :
  other <> "schema.graphql" ->
  files (main_of s E w).2 !! other = files w !! other.
Proof. intros Hne. now apply main_of_frame. Qed.

Lemma main_keeps_other_files_witness :
  files (main_of GraphqlSchema torn_env busy_world).2 !! "notes.txt"
  = files busy_world !! "notes.txt".
Proof.
  apply (main_keeps_other_files GraphqlSchema torn_env busy_world "notes.txt").
  discriminate.
Defined.

(** X12: the first thing [main] does is its call of [requests.post], with
    the endpoint constant of the script and the script's query, and it makes
    no other such call, however the later stages end; so the HTTP requests of
    a whole run are those the library sends for that one call, redirects
    included. *)
Theorem main_calls_post_first_and_once (s : script) (serve : WireRequest -> exchange)
    (C : Env) (w : World) :
  (exists rest,
     trace (main_of s (library_env serve C) w).2
       = (trace w ++ EvPost (endpoint_url_of s)
                       (JObject {[ "query" := JString (query_of C s) ]}) :: rest)%list /\
     List.filter is_post rest = []) /\
  wire_of serve (new_events w (main_of s (library_env serve C) w).2)
    = (follow serve max_redirects
         (post_request (endpoint_url_of s)
            (JObject {[ "query" := JString (query_of C s) ]}))).1.
Proof.
  assert (Hq : query_of (library_env serve C) s = query_of C s) by now destruct s.
  destruct (main_of_frame s (library_env serve C) w) as (_ & _ & rest & Htrace & Hrest).
  rewrite Hq in Htrace. split; [now exists rest|].
  rewrite (new_events_added _ _ _ Htrace).
  now apply wire_of_post_first.
Qed.

(** X13: [schema.graphql] differs after a run only if [fetch_schema] returned
    a value, [print_schema] rendered it and the open was allowed; and then it
    holds a prefix of the rendering.  So a failure of the request, of the
    decoder, of the check, of the printer or of the open leaves the former
    schema in place. *)
Theorem schema_file_changes_only_after_rendering (s : script) (E : Env) (w : World) :
  files (main_of s E w).2 !! "schema.graphql" <> files w !! "schema.graphql" ->
  exists d sdl stored_text,
    (fetch_schema_of s E (endpoint_url_of s) w).1 = Ok d /\
    print_schema E d = Some sdl /\
    open_denied E "schema.graphql" = false /\
    files (main_of s E w).2 !! "schema.graphql" = Some stored_text /\
    String.prefix stored_text sdl = true.
Proof.
  rewrite main_of_run.
  destruct (fetch_schema_of s E (endpoint_url_of s) w).1 as [d|e] eqn:Hfetch;
    [|intros Hdiff; now destruct Hdiff].
  unfold stored. destruct (print_schema E d) as [sdl|] eqn:Hsdl;
    [|intros Hdiff; now destruct Hdiff].
  destruct (open_denied E "schema.graphql") eqn:Hd; [intros Hdiff; now destruct Hdiff|].
  destruct (write_fault E "schema.graphql" sdl) as [n|]; intros _;
    cbn [snd sent log files handles trace].
  - exists d, sdl, (String.substring 0 n sdl).
    split; [reflexivity|]. split; [exact Hsdl|]. split; [reflexivity|].
    split; [apply lookup_insert_eq | apply prefix_substring].
  - exists d, sdl, sdl.
    split; [reflexivity|]. split; [exact Hsdl|]. split; [reflexivity|].
    split; [apply lookup_insert_eq | apply prefix_refl].
Qed.

Lemma schema_file_changes_only_after_rendering_witness :
  exists d sdl stored_text,
    (fetch_schema_of GraphqlSchema torn_env Script1.endpoint_url busy_world).1 = Ok d /\
    print_schema torn_env d = Some sdl /\
    open_denied torn_env "schema.graphql" = false /\
    files (main_of GraphqlSchema torn_env busy_world).2 !! "schema.graphql"
      = Some stored_text /\
    String.prefix stored_text sdl = true.
Proof.
  apply (schema_file_changes_only_after_rendering GraphqlSchema torn_env busy_world).
  vm_compute. discriminate.
Defined.

(** X14: against an endpoint and collaborators that do not change, a run that
    completes can be repeated: the second run, started in the world the first
    one left, completes too, leaves every file as the first one left it and
    the same descriptors open. *)
Theorem second_run_changes_nothing (s : script) (E : Env) (w : World) :
  (main_of s E w).1 = Ok tt ->
  (main_of s E (main_of s E w).2).1 = Ok tt /\
  files (main_of s E (main_of s E w).2).2 = files (main_of s E w).2 /\
  handles (main_of s E (main_of s E w).2).2 = handles (main_of s E w).2.
Proof.
  intros Hrun.
  destruct (main_of_ok_inv s E w Hrun) as (d & sdl & Hfetch & Hsdl & Hd & Hf).
  pose proof (main_of_ok_run s E w d sdl Hfetch Hsdl Hd Hf) as Hfirst.
  assert (Hfetch2 : (fetch_schema_of s E (endpoint_url_of s) (main_of s E w).2).1 = Ok d)
    by (rewrite <- Hfetch; apply fetch_schema_of_outcome).
  rewrite (main_of_ok_run s E (main_of s E w).2 d sdl Hfetch2 Hsdl Hd Hf).
  rewrite Hfirst. cbn [fst snd files handles].
  repeat split. apply insert_insert_eq.
Qed.

Lemma second_run_changes_nothing_witness :
  files (main_of GraphqlSchema ok_env (main_of GraphqlSchema ok_env busy_world).2).2
  = files (main_of GraphqlSchema ok_env busy_world).2.
Proof.
  destruct (second_run_changes_nothing GraphqlSchema ok_env busy_world) as (_ & Hfiles & _);
    [vm_compute; reflexivity | exact Hfiles].
Defined.

(** ** [save_schema] alone *)

(** X15: the file events of [save_schema], in order: when the open is
    refused, the attempt to open and nothing else, so no write and no close;
    otherwise the open, one write of the whole text and one close, both on
    the descriptor the open gave, which was not in use before the call. *)
Theorem save_schema_event_order (s : script) (E : Env) (sdlText path : string)
    (w : World) :
  handles w !! fresh (dom (handles w)) = None /\
  added (if open_denied E path
         then [EvOpen path]
         else [EvOpen path;
               EvWrite (fresh (dom (handles w))) sdlText;
               EvClose (fresh (dom (handles w)))])
        w (save_schema_of s E sdlText path w).2.
Proof.
  split; [apply fresh_descriptor_unused|].
  assert (Hshape : save_schema_of s E sdlText path w
            = with_open_w E path (fun f => py_write E f sdlText) w)
    by (destruct s; reflexivity).
  rewrite Hshape. clear Hshape.
  destruct (open_denied E path) eqn:Hd.
  - now rewrite (save_denied E sdlText path w Hd).
  - destruct (write_fault E path sdlText) as [n|] eqn:Hf.
    + now rewrite (save_torn E sdlText path w n Hd Hf).
    + now rewrite (save_stored E sdlText path w Hd Hf).
Qed.

(** X16: two calls of [save_schema] on one path that both succeed leave the
    text of the second call alone in the file: the file is replaced, not
    appended to. *)
Theorem save_schema_replaces (s : script) (E : Env) (first second path : string)
    (w : World) :
  (save_schema_of s E first path w).1 = Ok tt ->
  (save_schema_of s E second path (save_schema_of s E first path w).2).1 = Ok tt ->
  files (save_schema_of s E second path (save_schema_of s E first path w).2).2
    = <[path := second]> (files w).
Proof.
  assert (Hshape : forall t w', save_schema_of s E t path w'
            = with_open_w E path (fun f => py_write E f t) w')
    by (intros; destruct s; reflexivity).
  rewrite !Hshape.
  destruct (open_denied E path) eqn:Hd.
  { rewrite (save_denied E first path w Hd). discriminate. }
  destruct (write_fault E path first) as [n|] eqn:Hf1.
  { rewrite (save_torn E first path w n Hd Hf1). discriminate. }
  rewrite (save_stored E first path w Hd Hf1). intros _.
  destruct (write_fault E path second) as [n|] eqn:Hf2.
  { rewrite (save_torn E second path _ n Hd Hf2). discriminate. }
  rewrite (save_stored E second path _ Hd Hf2). intros _.
  cbn [snd files]. apply insert_insert_eq.
Qed.

Lemma save_schema_replaces_witness :
  files (save_schema_of GraphqlSchema ok_env "type B" "out.graphql"
           (save_schema_of GraphqlSchema ok_env "type A { a: Int }" "out.graphql"
              busy_world).2).2
  = <["out.graphql" := "type B"]> (files busy_world).
Proof.
  apply (save_schema_replaces GraphqlSchema ok_env "type A { a: Int }" "type B"
           "out.graphql" busy_world); vm_compute; reflexivity.
Defined.
